(** * cherami-server: the node bootstrap of [cmd/servicecmd/servicestartcmd.go]

    A shallow embedding of the six [Start*Service] entry points.  Each entry
    point is a straight-line program over external collaborators (the
    configuration loader, the process environment, the metadata client, the
    role packages, the websocket and diagnostic servers).  The embedding
    threads the process state (environment and the sequence of calls made to
    the collaborators) through a small state-and-abort monad; the answers of
    the collaborators are read from a [World]. *)

From Stdlib Require Import ZArith String Ascii List Bool Lia.
From Stdlib Require Import DecimalString DecimalPos DecimalZ.
From stdpp Require Import base gmap strings list.

Local Open Scope string_scope.
Local Open Scope Z_scope.

(** ** Go strings

    A Go string is a sequence of bytes; it is embedded as [string].  Only the
    three library functions the source calls are modelled. *)
Module GoStrings.

(** [strings.ToLower] on the ASCII letters: a byte in ['A','Z'] moves to
    ['a','z'], every other byte is kept.  (Go also maps the letters beyond
    ASCII through the Unicode tables; the backend tokens are ASCII.) *)
Definition lowerByte (c : ascii) : ascii :=
  let n := nat_of_ascii c in
  if (Nat.leb 65 n && Nat.leb n 90)%bool then ascii_of_nat (n + 32) else c.

Fixpoint ToLower (s : string) : string :=
  match s with
  | EmptyString => EmptyString
  | String c s' => String (lowerByte c) (ToLower s')
  end.

(** [strings.HasPrefix s prefix]. *)
Fixpoint HasPrefix (s prefix : string) {struct prefix} : bool :=
  match prefix with
  | EmptyString => true
  | String c prefix' =>
      match s with
      | EmptyString => false
      | String d s' => if Ascii.eqb c d then HasPrefix s' prefix' else false
      end
  end.

(** [strings.Contains s substr]: [substr] starts at some position of [s]. *)
Fixpoint Contains (s substr : string) : bool :=
  (HasPrefix s substr ||
   match s with
   | EmptyString => false
   | String _ s' => Contains s' substr
   end)%bool.

(** The test [s != ""]. *)
Definition nonEmpty (s : string) : bool :=
  match s with EmptyString => false | String _ _ => true end.

End GoStrings.

(** ** Go integers

    [int] is the 64-bit signed integer of the platforms the server runs on;
    [+] wraps around. *)
Module GoInt.

Definition wrap (z : Z) : Z := (z + 2 ^ 63) mod 2 ^ 64 - 2 ^ 63.

Definition add (a b : Z) : Z := wrap (a + b).

Definition inRange (z : Z) : Prop := - 2 ^ 63 <= z < 2 ^ 63.

(** [fmt.Sprintf("%d", n)]: the decimal digits, with a leading minus sign
    for a negative number. *)
Definition Sprintf_d (n : Z) : string := NilZero.string_of_int (Z.to_int n).

End GoInt.

Import GoStrings.

(** ** Data model *)

(** The role names of package [common] ([common.InputServiceName], ...).
    The constants are declared outside this file; only their identity
    matters here. *)
Inductive ServiceName :=
| InputServiceName
| ControllerServiceName
| FrontendServiceName
| OutputServiceName
| StoreServiceName
| ReplicatorServiceName.

(** What [cfg.GetServiceConfig(name)] answers: the per-role settings. *)
Record ServiceConfig := {
  GetPort : Z;
  GetWebsocketPort : Z;
  GetListenAddress : string  (* the [String()] of the listen address *)
}.

Record StorageConfig := {
  GetHostUUID : string;
  GetStore : string;
  GetBaseDir : string
}.

Inductive MetadataConfig := metadataConfig (hosts : string).
Inductive KafkaConfig := kafkaConfig (clusters : string).

(** The configuration object returned by [common.SetupServerConfig]. *)
Record AppConfig := {
  GetServiceConfig : ServiceName -> ServiceConfig;
  GetMetadataConfig : MetadataConfig;
  GetStorageConfig : StorageConfig;
  GetKafkaConfig : KafkaConfig
}.

(** Go's [error]: [nil] ([None]) or an error with its message. *)
Definition error := option string.

(** Handles of the shared collaborators.  Each records what it was built
    from. *)
Inductive MetaClient :=
| nilMetaClient
| CassandraMetadataService (session : nat).

Inductive HostHardwareInfoReader := hostHardwareInfoReader (meta : MetaClient).
Inductive MetricReporter := metricReporter (sc : ServiceConfig).
Inductive DconfigClient := dconfigClient (sc : ServiceConfig) (name : ServiceName).
Inductive UUIDResolver := uuidResolver (meta : MetaClient).
Inductive AuthManager := BypassAuthManager.
Inductive ZoneFailoverManager := DummyZoneFailoverManager.
Inductive Logger := DefaultLogger.
Inductive ReplicatorClientFactory := replicatorClientFactory (cfg : AppConfig) (l : Logger).

(** The service-common object built by [common.NewService]: the role name,
    the identity and the shared collaborators. *)
Record Service := NewService {
  sName : ServiceName;
  sUUID : string;
  sConfig : ServiceConfig;
  sResolver : UUIDResolver;
  sHWInfoReader : HostHardwareInfoReader;
  sReporter : MetricReporter;
  sDClient : DconfigClient;
  sAuthManager : AuthManager
}.

(** Modelled from the spec: the type [storehost.Store] and the struct
    [storehost.Options] are declared in package [storehost], outside this
    file.  The four kinds are the constants the source assigns; a [Store]
    field that the source never assigns stays at its zero value, read as
    "no kind set" ([None]). *)
Inductive StoreKind := Rockstor | Chunky | ManyRocks | RockCFstor.

Record Options := {
  Store : option StoreKind;
  BaseDir : string
}.

(** The role hosts, each with the arguments its constructor received. *)
Inductive Host :=
| InputHost (name : ServiceName) (sCommon : Service) (meta : MetaClient)
| Mcp (cfg : AppConfig) (sVice : Service) (meta : MetaClient) (zfm : ZoneFailoverManager)
| FrontendHost (name : ServiceName) (sCommon : Service) (meta : MetaClient) (cfg : AppConfig)
| OutputHost (name : ServiceName) (sCommon : Service) (meta : MetaClient)
    (frontendhost : Host) (kafka : KafkaConfig)
| StoreHost (name : ServiceName) (sCommon : Service) (meta : MetaClient) (opts : Options)
| ReplicatorHost (name : ServiceName) (sCommon : Service) (meta : MetaClient)
    (factory : ReplicatorClientFactory) (cfg : AppConfig).

(** A transport-channel registration.  The registrations a role constructor
    returns are one token per host; the frontend adds the metadata server. *)
Inductive TChanServer :=
| HostServer (h : Host)
| TChanMetadataExposableServer (meta : MetaClient).

(** What the diagnostic loop is given for introspection: the host, the
    service-common object, or the [Service] field of the host
    ([mcp.Service]). *)
Inductive Exposed :=
| ExposeHost (h : Host)
| ExposeService (s : Service)
| ExposeServiceOf (h : Host).

(** The command line as package [flag] sees it: either it does not parse, or
    it gives the flags that were supplied.  (A request for help, [-h], which
    ends the process with a status that depends on the Go release, is not a
    case of this type.) *)
Inductive CmdLine :=
| BadArgs
| Flags (store dir : option string).

(** ** The world

    Everything the bootstrap reads from outside: the loaded configuration,
    the initial environment, the command line, and the answers of the calls
    that can fail or that are random. *)
Record World := {
  config : AppConfig;
  os_Environ : gmap string string;
  os_Args : CmdLine;
  setenv_error : error;
  metadata_result : string + nat;
  uuid_New : string
}.

(** ** Calls to collaborators *)
Inductive Event :=
| EvSetupServerConfig (cfg : AppConfig)
| EvSetenv (key value : string) (err : error)
| EvLogPanic (e : error)
| EvNewCassandraMetadataService (mc : MetadataConfig) (meta : MetaClient) (err : error)
| EvLogFatal (err : error) (msg : string)
| EvNewHostHardwareInfoReader (meta : MetaClient)
| EvNewMetricReporterWithHostname (sc : ServiceConfig)
| EvNewDconfigClient (sc : ServiceConfig) (name : ServiceName)
| EvUuidNew (u : string)
| EvNewUUIDResolver (meta : MetaClient)
| EvNewBypassAuthManager
| EvNewService (s : Service)
| EvNewDummyZoneFailoverManager
| EvGetDefaultLogger
| EvNewReplicatorClientFactory (cfg : AppConfig) (l : Logger)
| EvFlagParse (args : CmdLine)
| EvNewHost (h : Host)
| EvNewTChanMetadataExposableServer (meta : MetaClient)
| EvStart (h : Host) (tc : list TChanServer)
| EvWSStart (addr : string) (port : Z) (h : Host)
| EvServiceLoop (port : Z) (cfg : AppConfig) (x : Exposed).

(** ** The process monad *)

(** How a process stops before the entry point returns: [log.Panic] panics
    with the error, [log.Fatal] and a command line that does not parse exit
    with a status. *)
Inductive Stop :=
| Panic (e : error)
| Exit (code : Z).

Inductive Result (A : Type) :=
| Done (a : A)
| Stopped (s : Stop).
Arguments Done {A} a.
Arguments Stopped {A} s.

Record Proc := {
  env : gmap string string;
  trace : list Event
}.

Definition M (A : Type) : Type := Proc -> Result A * Proc.

Definition ret {A} (a : A) : M A := fun p => (Done a, p).

Definition bind {A B} (m : M A) (k : A -> M B) : M B :=
  fun p =>
    match m p with
    | (Done a, p') => k a p'
    | (Stopped s, p') => (Stopped s, p')
    end.

Declare Scope proc_scope.
Delimit Scope proc_scope with proc.
Notation "'let*' x ':=' m 'in' k" := (bind m (fun x => k))
  (at level 10, x pattern, m at level 100, k at level 200) : proc_scope.
Notation "m ;; k" := (bind m (fun _ => k))
  (at level 100, k at level 200, right associativity) : proc_scope.
Local Open Scope proc_scope.

Definition emit (ev : Event) : M unit :=
  fun p => (Done tt, {| env := env p; trace := trace p ++ [ev] |}).

Definition stop {A} (s : Stop) : M A := fun p => (Stopped s, p).

(** [if cond { body }]. *)
Definition when (cond : bool) (body : M unit) : M unit :=
  if cond then body else ret tt.

(** [err != nil]. *)
Definition notNil {A} (e : option A) : bool :=
  match e with Some _ => true | None => false end.

(** ** The collaborators, as the bootstrap sees them *)
Section Collaborators.

Variable w : World.

Definition common_SetupServerConfig : M AppConfig :=
  emit (EvSetupServerConfig (config w)) ;; ret (config w).

(** [os.Setenv]: on success the variable is set in the process
    environment. *)
Definition os_Setenv (key value : string) : M error :=
  fun p =>
    match setenv_error w with
    | Some e =>
        (Done (Some e : error),
         {| env := env p; trace := trace p ++ [EvSetenv key value (Some e)] |})
    | None =>
        (Done (None : error),
         {| env := <[key := value]> (env p);
            trace := trace p ++ [EvSetenv key value None] |})
    end.

(** [os.Getenv]: the empty string for a variable that is not set. *)
Definition os_Getenv (key : string) : M string :=
  fun p => (Done (default "" (env p !! key)), p).

(** [log.Panic(e)]: logs, then panics. *)
Definition log_Panic (e : error) : M unit :=
  emit (EvLogPanic e) ;; stop (Panic e).

(** [log.WithField(common.TagErr, err).Fatal(msg)]: logs the message with
    the error attached, then exits with status 1. *)
Definition log_Fatal (err : error) (msg : string) : M unit :=
  emit (EvLogFatal err msg) ;; stop (Exit 1).

Definition metadata_NewCassandraMetadataService (mc : MetadataConfig)
  : M (MetaClient * error) :=
  let r := match metadata_result w with
           | inl e => (nilMetaClient, Some e : error)
           | inr session => (CassandraMetadataService session, None : error)
           end in
  emit (EvNewCassandraMetadataService mc (fst r) (snd r)) ;; ret r.

Definition common_NewHostHardwareInfoReader (meta : MetaClient) : M HostHardwareInfoReader :=
  emit (EvNewHostHardwareInfoReader meta) ;; ret (hostHardwareInfoReader meta).

Definition common_NewMetricReporterWithHostname (sc : ServiceConfig) : M MetricReporter :=
  emit (EvNewMetricReporterWithHostname sc) ;; ret (metricReporter sc).

Definition dconfigclient_NewDconfigClient (sc : ServiceConfig) (name : ServiceName)
  : M DconfigClient :=
  emit (EvNewDconfigClient sc name) ;; ret (dconfigClient sc name).

(** [uuid.New()]: a random UUID, as a string. *)
Definition uuid_New_call : M string :=
  emit (EvUuidNew (uuid_New w)) ;; ret (uuid_New w).

Definition common_NewUUIDResolver (meta : MetaClient) : M UUIDResolver :=
  emit (EvNewUUIDResolver meta) ;; ret (uuidResolver meta).

Definition common_NewBypassAuthManager : M AuthManager :=
  emit EvNewBypassAuthManager ;; ret BypassAuthManager.

Definition common_NewService (name : ServiceName) (id : string) (sc : ServiceConfig)
    (r : UUIDResolver) (hw : HostHardwareInfoReader) (rep : MetricReporter)
    (dc : DconfigClient) (auth : AuthManager) : M Service :=
  let s := NewService name id sc r hw rep dc auth in
  emit (EvNewService s) ;; ret s.

Definition common_NewDummyZoneFailoverManager : M ZoneFailoverManager :=
  emit EvNewDummyZoneFailoverManager ;; ret DummyZoneFailoverManager.

Definition common_GetDefaultLogger : M Logger :=
  emit EvGetDefaultLogger ;; ret DefaultLogger.

Definition replicator_NewReplicatorClientFactory (cfg : AppConfig) (l : Logger)
  : M ReplicatorClientFactory :=
  emit (EvNewReplicatorClientFactory cfg l) ;; ret (replicatorClientFactory cfg l).

(** A role constructor: returns the host and its channel registrations. *)
Definition newHost (h : Host) : M (Host * list TChanServer) :=
  emit (EvNewHost h) ;; ret (h, [HostServer h]).

Definition inputhost_NewInputHost name sCommon meta := newHost (InputHost name sCommon meta).
Definition controllerhost_NewController cfg sVice meta zfm := newHost (Mcp cfg sVice meta zfm).
Definition frontendhost_NewFrontendHost name sCommon meta cfg :=
  newHost (FrontendHost name sCommon meta cfg).
Definition outputhost_NewOutputHost name sCommon meta fe kafka :=
  newHost (OutputHost name sCommon meta fe kafka).
Definition storehost_NewStoreHost name sCommon meta opts :=
  newHost (StoreHost name sCommon meta opts).
Definition replicator_NewReplicator name sCommon meta factory cfg :=
  newHost (ReplicatorHost name sCommon meta factory cfg).

Definition m_NewTChanMetadataExposableServer (meta : MetaClient) : M TChanServer :=
  emit (EvNewTChanMetadataExposableServer meta) ;; ret (TChanMetadataExposableServer meta).

(** [flag.StringVar] registers a string flag with its default; [flag.Parse]
    then reads the command line: a flag that was supplied replaces the
    default, and a command line that does not parse ends the process with
    status 2 (the default flag set exits on error). *)
Definition flag_StringVar (supplied : option string) (dflt : string) : string :=
  match supplied with
  | Some v => v
  | None => dflt
  end.

Definition flag_Parse (storeDefault dirDefault : string) : M (string * string) :=
  emit (EvFlagParse (os_Args w)) ;;
  match os_Args w with
  | BadArgs => stop (Exit 2)
  | Flags store dir =>
      ret (flag_StringVar store storeDefault, flag_StringVar dir dirDefault)
  end.

(** The three listeners. *)
Definition Start (h : Host) (tc : list TChanServer) : M unit := emit (EvStart h tc).

Definition common_WSStart (addr : string) (port : Z) (h : Host) : M unit :=
  emit (EvWSStart addr port h).

Definition common_ServiceLoop (port : Z) (cfg : AppConfig) (x : Exposed) : M unit :=
  emit (EvServiceLoop port cfg x).

End Collaborators.

(** ** The entry points *)

Definition diagnosticPortOffset : Z := 10000.

(** The backend switch of [StartStoreHostService], on the lower-cased name:
    the options after it.  The first case whose token is contained in the
    name assigns the [Store] field; the default case assigns nothing. *)
Definition storeSwitch (storeStr : string) (opts : Options) : Options :=
  if Contains storeStr "rockstor" then
    {| Store := Some Rockstor; BaseDir := BaseDir opts |}
  else if Contains storeStr "chunky" then
    {| Store := Some Chunky; BaseDir := BaseDir opts |}
  else if Contains storeStr "manyrocks" then
    {| Store := Some ManyRocks; BaseDir := BaseDir opts |}
  else if Contains storeStr "rockcfstor" then
    {| Store := Some RockCFstor; BaseDir := BaseDir opts |}
  else
    opts.

(** The base-directory switch of [StartStoreHostService]: the cases are
    tried in order, and the environment is read only when the case before
    did not apply. *)
Definition baseDirSwitch (baseDir : string) (cfg : AppConfig) (opts : Options) : M Options :=
  if nonEmpty baseDir then
    ret {| Store := Store opts; BaseDir := baseDir |}
  else
    let* envDir := os_Getenv "CHERAMI_STORE" in
    if nonEmpty envDir then
      let* envDir' := os_Getenv "CHERAMI_STORE" in
      ret {| Store := Store opts; BaseDir := envDir' |}
    else if nonEmpty (GetBaseDir (GetStorageConfig cfg)) then
      ret {| Store := Store opts; BaseDir := GetBaseDir (GetStorageConfig cfg) |}
    else
      ret opts.

Definition StartInputHostService (w : World) : M unit :=
  let serviceName := InputServiceName in
  let* cfg := common_SetupServerConfig w in
  let* e := os_Setenv w "port" (GoInt.Sprintf_d (GetPort (GetServiceConfig cfg serviceName))) in
  when (notNil e) (log_Panic e) ;;
  let* (meta, err) := metadata_NewCassandraMetadataService w (GetMetadataConfig cfg) in
  when (notNil err)
    (log_Fatal err "inputhost: unable to instantiate metadata client") ;;
  let* hwInfoReader := common_NewHostHardwareInfoReader meta in
  let* reporter := common_NewMetricReporterWithHostname (GetServiceConfig cfg serviceName) in
  let* dClient := dconfigclient_NewDconfigClient (GetServiceConfig cfg serviceName) serviceName in
  let* id := uuid_New_call w in
  let* resolver := common_NewUUIDResolver meta in
  let* auth := common_NewBypassAuthManager in
  let* sCommon := common_NewService serviceName id (GetServiceConfig cfg serviceName)
                    resolver hwInfoReader reporter dClient auth in
  let* (h, tc) := inputhost_NewInputHost serviceName sCommon meta in
  Start h tc ;;
  common_WSStart (GetListenAddress (GetServiceConfig cfg serviceName))
    (GetWebsocketPort (GetServiceConfig cfg serviceName)) h ;;
  common_ServiceLoop
    (GoInt.add (GetPort (GetServiceConfig cfg serviceName)) diagnosticPortOffset)
    cfg (ExposeHost h).

Definition StartControllerService (w : World) : M unit :=
  let serviceName := ControllerServiceName in
  let* cfg := common_SetupServerConfig w in
  let* e := os_Setenv w "port" (GoInt.Sprintf_d (GetPort (GetServiceConfig cfg serviceName))) in
  when (notNil e) (log_Panic e) ;;
  let* (meta, err) := metadata_NewCassandraMetadataService w (GetMetadataConfig cfg) in
  when (notNil err)
    (log_Fatal err
       "unable to instantiate metadata service (did you run ./scripts/setup_cassandra_schema.sh?)") ;;
  let* hwInfoReader := common_NewHostHardwareInfoReader meta in
  let* reporter := common_NewMetricReporterWithHostname (GetServiceConfig cfg serviceName) in
  let* dClient := dconfigclient_NewDconfigClient (GetServiceConfig cfg serviceName) serviceName in
  let* id := uuid_New_call w in
  let* resolver := common_NewUUIDResolver meta in
  let* auth := common_NewBypassAuthManager in
  let* sVice := common_NewService serviceName id (GetServiceConfig cfg serviceName)
                  resolver hwInfoReader reporter dClient auth in
  let* zfm := common_NewDummyZoneFailoverManager in
  let* (mcp, tc) := controllerhost_NewController cfg sVice meta zfm in
  Start mcp tc ;;
  common_ServiceLoop
    (GoInt.add (GetPort (GetServiceConfig cfg serviceName)) diagnosticPortOffset)
    cfg (ExposeServiceOf mcp).

Definition StartFrontendHostService (w : World) : M unit :=
  let serviceName := FrontendServiceName in
  let* cfg := common_SetupServerConfig w in
  let* e := os_Setenv w "port" (GoInt.Sprintf_d (GetPort (GetServiceConfig cfg serviceName))) in
  when (notNil e) (log_Panic e) ;;
  let* (meta, err) := metadata_NewCassandraMetadataService w (GetMetadataConfig cfg) in
  when (notNil err)
    (log_Fatal err "frontendhost: unable to instantiate metadata service") ;;
  let* hwInfoReader := common_NewHostHardwareInfoReader meta in
  let* reporter := common_NewMetricReporterWithHostname (GetServiceConfig cfg serviceName) in
  let* dClient := dconfigclient_NewDconfigClient (GetServiceConfig cfg serviceName) serviceName in
  let* id := uuid_New_call w in
  let* resolver := common_NewUUIDResolver meta in
  let* auth := common_NewBypassAuthManager in
  let* sCommon := common_NewService serviceName id (GetServiceConfig cfg serviceName)
                    resolver hwInfoReader reporter dClient auth in
  let* (h, tc) := frontendhost_NewFrontendHost serviceName sCommon meta cfg in
  let* exposable := m_NewTChanMetadataExposableServer meta in
  let tc := (tc ++ [exposable])%list in
  Start h tc ;;
  common_ServiceLoop
    (GoInt.add (GetPort (GetServiceConfig cfg serviceName)) diagnosticPortOffset)
    cfg (ExposeService sCommon).

Definition StartOutputHostService (w : World) : M unit :=
  let serviceName := OutputServiceName in
  let* cfg := common_SetupServerConfig w in
  let* e := os_Setenv w "port" (GoInt.Sprintf_d (GetPort (GetServiceConfig cfg serviceName))) in
  when (notNil e) (log_Panic e) ;;
  let* (meta, err) := metadata_NewCassandraMetadataService w (GetMetadataConfig cfg) in
  when (notNil err)
    (log_Fatal err "frontendhost: unable to instantiate metadata service") ;;
  let* hwInfoReader := common_NewHostHardwareInfoReader meta in
  let* reporter := common_NewMetricReporterWithHostname (GetServiceConfig cfg serviceName) in
  let* dClient := dconfigclient_NewDconfigClient (GetServiceConfig cfg serviceName) serviceName in
  let* id := uuid_New_call w in
  let* resolver := common_NewUUIDResolver meta in
  let* auth := common_NewBypassAuthManager in
  let* sCommon := common_NewService serviceName id (GetServiceConfig cfg serviceName)
                    resolver hwInfoReader reporter dClient auth in
  let* (frontendhost, _) := frontendhost_NewFrontendHost FrontendServiceName sCommon meta cfg in
  let* (h, tc) := outputhost_NewOutputHost serviceName sCommon meta frontendhost
                     (GetKafkaConfig cfg) in
  Start h tc ;;
  common_WSStart (GetListenAddress (GetServiceConfig cfg serviceName))
    (GetWebsocketPort (GetServiceConfig cfg serviceName)) h ;;
  common_ServiceLoop
    (GoInt.add (GetPort (GetServiceConfig cfg serviceName)) diagnosticPortOffset)
    cfg (ExposeService sCommon).

Definition StartStoreHostService (w : World) : M unit :=
  let serviceName := StoreServiceName in
  let* cfg := common_SetupServerConfig w in
  let* e := os_Setenv w "port" (GoInt.Sprintf_d (GetPort (GetServiceConfig cfg serviceName))) in
  when (notNil e) (log_Panic e) ;;
  let* (meta, err) := metadata_NewCassandraMetadataService w (GetMetadataConfig cfg) in
  when (notNil err)
    (log_Fatal err "storehost: unable to instantiate metadata client") ;;
  let* hwInfoReader := common_NewHostHardwareInfoReader meta in
  let* reporter := common_NewMetricReporterWithHostname (GetServiceConfig cfg serviceName) in
  let* dClient := dconfigclient_NewDconfigClient (GetServiceConfig cfg serviceName) serviceName in
  let* resolver := common_NewUUIDResolver meta in
  let* auth := common_NewBypassAuthManager in
  let* sCommon := common_NewService serviceName (GetHostUUID (GetStorageConfig cfg))
                    (GetServiceConfig cfg serviceName) resolver hwInfoReader reporter dClient
                    auth in
  let* (storeStr, baseDir) := flag_Parse w (GetStore (GetStorageConfig cfg)) "" in
  let opts := {| Store := None; BaseDir := baseDir |} in
  let storeStr := ToLower storeStr in
  let opts := storeSwitch storeStr opts in
  let* opts := baseDirSwitch baseDir cfg opts in
  let* (h, tc) := storehost_NewStoreHost serviceName sCommon meta opts in
  Start h tc ;;
  common_WSStart (GetListenAddress (GetServiceConfig cfg serviceName))
    (GetWebsocketPort (GetServiceConfig cfg serviceName)) h ;;
  common_ServiceLoop
    (GoInt.add (GetPort (GetServiceConfig cfg serviceName)) diagnosticPortOffset)
    cfg (ExposeService sCommon).

Definition StartReplicatorService (w : World) : M unit :=
  let serviceName := ReplicatorServiceName in
  let* cfg := common_SetupServerConfig w in
  let* e := os_Setenv w "port" (GoInt.Sprintf_d (GetPort (GetServiceConfig cfg serviceName))) in
  when (notNil e) (log_Panic e) ;;
  let* (meta, err) := metadata_NewCassandraMetadataService w (GetMetadataConfig cfg) in
  when (notNil err)
    (log_Fatal err "frontendhost: unable to instantiate metadata service") ;;
  let* hwInfoReader := common_NewHostHardwareInfoReader meta in
  let* reporter := common_NewMetricReporterWithHostname (GetServiceConfig cfg serviceName) in
  let* dClient := dconfigclient_NewDconfigClient (GetServiceConfig cfg serviceName) serviceName in
  let* id := uuid_New_call w in
  let* resolver := common_NewUUIDResolver meta in
  let* auth := common_NewBypassAuthManager in
  let* sCommon := common_NewService serviceName id (GetServiceConfig cfg serviceName)
                    resolver hwInfoReader reporter dClient auth in
  let* logger := common_GetDefaultLogger in
  let* factory := replicator_NewReplicatorClientFactory cfg logger in
  let* (h, tc) := replicator_NewReplicator serviceName sCommon meta factory cfg in
  Start h tc ;;
  common_WSStart (GetListenAddress (GetServiceConfig cfg serviceName))
    (GetWebsocketPort (GetServiceConfig cfg serviceName)) h ;;
  common_ServiceLoop
    (GoInt.add (GetPort (GetServiceConfig cfg serviceName)) diagnosticPortOffset)
    cfg (ExposeService sCommon).

(** ** Roles and runs *)

Inductive Role := Input | Controller | Frontend | Output | Storage | Replicator.

Definition serviceNameOf (r : Role) : ServiceName :=
  match r with
  | Input => InputServiceName
  | Controller => ControllerServiceName
  | Frontend => FrontendServiceName
  | Output => OutputServiceName
  | Storage => StoreServiceName
  | Replicator => ReplicatorServiceName
  end.

Definition entryPoint (r : Role) : World -> M unit :=
  match r with
  | Input => StartInputHostService
  | Controller => StartControllerService
  | Frontend => StartFrontendHostService
  | Output => StartOutputHostService
  | Storage => StartStoreHostService
  | Replicator => StartReplicatorService
  end.

(** The process at its start: the environment it inherits, no call made. *)
Definition boot (w : World) : Proc := {| env := os_Environ w; trace := [] |}.

Definition run (r : Role) (w : World) : Result unit * Proc := entryPoint r w (boot w).

(** The calls made, in order; how the entry point ended; the environment at
    the end. *)
Definition calls (r : Role) (w : World) : list Event := trace (snd (run r w)).
Definition outcome (r : Role) (w : World) : Result unit := fst (run r w).
Definition finalEnv (r : Role) (w : World) : gmap string string := env (snd (run r w)).

(** The role's resolved settings. *)
Definition roleConfig (r : Role) (w : World) : ServiceConfig :=
  GetServiceConfig (config w) (serviceNameOf r).

Definition primaryPort (r : Role) (w : World) : Z := GetPort (roleConfig r w).

(** ** Observations on the calls *)

(** A call that opens a listener: the start of the primary host, of the
    websocket server, of the diagnostic loop. *)
Definition isListener (ev : Event) : bool :=
  match ev with
  | EvStart _ _ | EvWSStart _ _ _ | EvServiceLoop _ _ _ => true
  | _ => false
  end.

Definition listeners (r : Role) (w : World) : list Event :=
  List.filter isListener (calls r w).

(** The service-common objects built. *)
Definition bundleOf (ev : Event) : option Service :=
  match ev with
  | EvNewService s => Some s
  | _ => None
  end.

Definition bundles (r : Role) (w : World) : list Service := omap bundleOf (calls r w).

(** The options handed to the store host. *)
Definition optionsOf (ev : Event) : option Options :=
  match ev with
  | EvNewHost (StoreHost _ _ _ opts) => Some opts
  | _ => None
  end.

Definition storeOptions (w : World) : list Options := omap optionsOf (calls Storage w).

(** The fatal log messages, each with the error attached. *)
Definition fatalOf (ev : Event) : option (error * string) :=
  match ev with
  | EvLogFatal err msg => Some (err, msg)
  | _ => None
  end.

Definition fatals (r : Role) (w : World) : list (error * string) := omap fatalOf (calls r w).

(** The ports given to the diagnostic loop. *)
Definition diagnosticOf (ev : Event) : option Z :=
  match ev with
  | EvServiceLoop port _ _ => Some port
  | _ => None
  end.

Definition diagnosticPorts (r : Role) (w : World) : list Z := omap diagnosticOf (calls r w).

(** A run of calls that opens no listener. *)
Definition quiet (l : list Event) : bool := forallb (fun ev => negb (isListener ev)) l.

(** The identities generated by [uuid.New] in a run. *)
Definition generatedOf (ev : Event) : option string :=
  match ev with
  | EvUuidNew u => Some u
  | _ => None
  end.

Definition generated (r : Role) (w : World) : list string := omap generatedOf (calls r w).

(** The attempts to build the metadata client, each with its error. *)
Definition metadataOf (ev : Event) : option error :=
  match ev with
  | EvNewCassandraMetadataService _ _ err => Some err
  | _ => None
  end.

Definition metadataCalls (r : Role) (w : World) : list error := omap metadataOf (calls r w).

(** The readings of the command line. *)
Definition flagOf (ev : Event) : option CmdLine :=
  match ev with
  | EvFlagParse args => Some args
  | _ => None
  end.

Definition flagParses (r : Role) (w : World) : list CmdLine := omap flagOf (calls r w).

Definition isFlagParse (ev : Event) : bool :=
  match ev with
  | EvFlagParse _ => true
  | _ => false
  end.

(** The hosts built by the role constructors. *)
Definition hostOf (ev : Event) : option Host :=
  match ev with
  | EvNewHost h => Some h
  | _ => None
  end.

Definition hosts (r : Role) (w : World) : list Host := omap hostOf (calls r w).

(** The hosts started, each with the channel registrations it is given. *)
Definition startOf (ev : Event) : option (Host * list TChanServer) :=
  match ev with
  | EvStart h tc => Some (h, tc)
  | _ => None
  end.

Definition started (r : Role) (w : World) : list (Host * list TChanServer) :=
  omap startOf (calls r w).

(** The host behind each listener that is given one (the primary host and
    the websocket server). *)
Definition listenerHostOf (ev : Event) : option Host :=
  match ev with
  | EvStart h _ | EvWSStart _ _ h => Some h
  | _ => None
  end.

Definition listenerHosts (r : Role) (w : World) : list Host :=
  omap listenerHostOf (calls r w).

(** What the diagnostic loop is given. *)
Definition exposedOf (ev : Event) : option Exposed :=
  match ev with
  | EvServiceLoop _ _ x => Some x
  | _ => None
  end.

Definition exposures (r : Role) (w : World) : list Exposed := omap exposedOf (calls r w).

(** The service-common object and the metadata client a host was built
    over. *)
Definition hostService (h : Host) : Service :=
  match h with
  | InputHost _ s _ | Mcp _ s _ _ | FrontendHost _ s _ _ | OutputHost _ s _ _ _
  | StoreHost _ s _ _ | ReplicatorHost _ s _ _ _ => s
  end.

Definition hostMeta (h : Host) : MetaClient :=
  match h with
  | InputHost _ _ m | Mcp _ _ m _ | FrontendHost _ _ m _ | OutputHost _ _ m _ _
  | StoreHost _ _ m _ | ReplicatorHost _ _ m _ _ => m
  end.

(** The name a host was built under ([None] for the controller, whose
    constructor takes no name). *)
Definition hostName (h : Host) : option ServiceName :=
  match h with
  | InputHost n _ _ | FrontendHost n _ _ _ | OutputHost n _ _ _ _
  | StoreHost n _ _ _ | ReplicatorHost n _ _ _ _ => Some n
  | Mcp _ _ _ _ => None
  end.

(** The same world with another command line. *)
Definition withArgs (w : World) (args : CmdLine) : World :=
  {| config := config w; os_Environ := os_Environ w; os_Args := args;
     setenv_error := setenv_error w; metadata_result := metadata_result w;
     uuid_New := uuid_New w |}.

(** ** What the spec calls the operations *)

(** The ordered backend tokens of the spec, each with its kind. *)
Definition backendTokens : list (string * StoreKind) :=
  [("rockstor", Rockstor); ("chunky", Chunky); ("manyrocks", ManyRocks);
   ("rockcfstor", RockCFstor)].


(** [resolveBackend] in the spec's words: lower-case the name, then the
    kind of the first token, in order, that the name contains. *)
Definition resolveBackend_spec (rawName : string) : option StoreKind :=
  let lowered := ToLower rawName in
  snd <$> List.find (fun tk => Contains lowered (fst tk)) backendTokens.

(** [resolveBackend] as the source computes it: the [Store] field after the
    switch, starting from options whose [Store] field is not set. *)
Definition resolveBackend (rawName : string) : option StoreKind :=
  Store (storeSwitch (ToLower rawName) {| Store := None; BaseDir := "" |}).

(** [resolveBaseDir] in the spec's words: the first non-empty value in the
    order command line, environment, configuration; empty when all three
    are. *)
Definition resolveBaseDir_spec (cliArg envVar configValue : string) : string :=
  default "" (head (List.filter nonEmpty [cliArg; envVar; configValue])).

(** The roles for which the source starts a websocket server. *)
Definition exposesStreaming (r : Role) : bool :=
  match r with
  | Input | Output | Storage | Replicator => true
  | Controller | Frontend => false
  end.

(** The entry point gets as far as starting the role: the port was
    exported, the metadata client was built and, for the storage role, the
    command line parsed. *)
Definition starts (r : Role) (w : World) : bool :=
  negb (notNil (setenv_error w)) &&
  match metadata_result w with inr _ => true | inl _ => false end &&
  match r, os_Args w with
  | Storage, BadArgs => false
  | _, _ => true
  end.

(** The name a role goes by in its own fatal message (the prefix the
    input, store and frontend messages carry). *)
Definition roleTag (r : Role) : string :=
  match r with
  | Input => "inputhost"
  | Controller => "controller"
  | Frontend => "frontendhost"
  | Output => "outputhost"
  | Storage => "storehost"
  | Replicator => "replicator"
  end.

Definition namesRole (r : Role) (msg : string) : bool := Contains msg (roleTag r).

(** A port that a listener can bind. *)
Definition validPort (p : Z) : Prop := 0 <= p <= 65535.

(** The identity the spec's [resolveIdentity] gives a role: the configured
    host UUID for the storage role, the generated one for the others. *)
Definition resolveIdentity_spec (r : Role) (w : World) : string :=
  match r with
  | Storage => GetHostUUID (GetStorageConfig (config w))
  | _ => uuid_New w
  end.

(** The service-common object of a role, over a metadata client. *)
Definition bundle (r : Role) (w : World) (meta : MetaClient) : Service :=
  {| sName := serviceNameOf r;
     sUUID := resolveIdentity_spec r w;
     sConfig := roleConfig r w;
     sResolver := uuidResolver meta;
     sHWInfoReader := hostHardwareInfoReader meta;
     sReporter := metricReporter (roleConfig r w);
     sDClient := dconfigClient (roleConfig r w) (serviceNameOf r);
     sAuthManager := BypassAuthManager |}.

(** ** Concrete worlds, for the examples *)
Module Sample.

Definition serviceConfig (port : Z) : ServiceConfig :=
  {| GetPort := port; GetWebsocketPort := port + 1000; GetListenAddress := "10.0.0.7" |}.

Definition cfg : AppConfig :=
  {| GetServiceConfig := fun name =>
       match name with
       | InputServiceName => serviceConfig 4240
       | ControllerServiceName => serviceConfig 5425
       | FrontendServiceName => serviceConfig 4922
       | OutputServiceName => serviceConfig 4254
       | StoreServiceName => serviceConfig 4253
       | ReplicatorServiceName => serviceConfig 6280
       end;
     GetMetadataConfig := metadataConfig "127.0.0.1";
     GetStorageConfig :=
       {| GetHostUUID := "11ca50ad-1b3d-4d73-8be5-5b2b3c6a9c7e";
          GetStore := "ManyRocks";
          GetBaseDir := "/data/c" |};
     GetKafkaConfig := kafkaConfig "local" |}.

(** Everything answers; the storage flags are as given. *)
Definition up (store dir : option string) (environ : gmap string string) (u : string)
  : World :=
  {| config := cfg; os_Environ := environ; os_Args := Flags store dir;
     setenv_error := None; metadata_result := inr 1%nat; uuid_New := u |}.

(** The metadata store cannot be reached. *)
Definition metadataDown : World :=
  {| config := cfg; os_Environ := ∅; os_Args := Flags None None;
     setenv_error := None; metadata_result := inl "no hosts available";
     uuid_New := "6ba7b810-9dad-41d1-80b4-00c04fd430c8" |}.

(** The environment cannot be written. *)
Definition setenvDown : World :=
  {| config := cfg; os_Environ := ∅; os_Args := Flags None None;
     setenv_error := Some "setenv: invalid argument"; metadata_result := inr 1%nat;
     uuid_New := "6ba7b810-9dad-41d1-80b4-00c04fd430c8" |}.

End Sample.

(** * Properties *)

(** ** Strings and integers *)

Example ToLower_ex : GoStrings.ToLower "MyRockstorDB" = "myrockstordb".
Proof. reflexivity. Qed.

Example Contains_ex : GoStrings.Contains "myrockstordb" "rockstor" = true.
Proof. reflexivity. Qed.

Example Sprintf_d_ex :
  GoInt.Sprintf_d 4240 = "4240" /\ GoInt.Sprintf_d 0 = "0" /\ GoInt.Sprintf_d (-7) = "-7".
Proof. repeat split; reflexivity. Qed.

Lemma HasPrefix_spec s p : HasPrefix s p = true <-> exists rest, s = p +:+ rest.
Proof.
  revert s; induction p as [|c p IH]; intros s; simpl.
  - split; [intros _; exists s; reflexivity | reflexivity].
  - destruct s as [|d s].
    + split; [discriminate | intros [rest H]; discriminate].
    + destruct (Ascii.eqb_spec c d) as [->|Hne].
      * rewrite IH. split; intros [rest H]; exists rest.
        -- now rewrite H.
        -- now injection H.
      * split; [discriminate | intros [rest H]; injection H; congruence].
Qed.

(** [Contains] is substring containment. *)
Lemma Contains_spec s sub :
  Contains s sub = true <-> exists pre post, s = pre +:+ sub +:+ post.
Proof.
  induction s as [|c s IH]; simpl.
  - rewrite orb_false_r, HasPrefix_spec. split.
    + intros [rest H]. exists "", rest. exact H.
    + intros [pre [post H]]. destruct pre; [exists post; exact H | discriminate].
  - rewrite orb_true_iff, HasPrefix_spec, IH. split.
    + intros [[rest H] | [pre [post H]]].
      * exists "", rest. exact H.
      * exists (String c pre), post. simpl. now rewrite H.
    + intros [pre [post H]]. destruct pre as [|d pre].
      * left. exists post. exact H.
      * right. simpl in H. injection H as _ H. exists pre, post. exact H.
Qed.

Lemma add_no_wrap a b : GoInt.inRange (a + b) -> GoInt.add a b = a + b.
Proof.
  unfold GoInt.inRange, GoInt.add, GoInt.wrap. intros H.
  rewrite Z.mod_small by lia. lia.
Qed.

Lemma diagnostic_no_wrap p : validPort p -> GoInt.add p diagnosticPortOffset = p + 10000.
Proof.
  unfold validPort, diagnosticPortOffset. intros H.
  apply add_no_wrap. unfold GoInt.inRange. lia.
Qed.

(** ** Running an entry point *)

(** Case analysis on what the world answers, then symbolic execution of the
    entry point. *)
Ltac world w :=
  let cfg := fresh "cfg" in
  let environ := fresh "environ" in
  let args := fresh "args" in
  let se := fresh "se" in
  let mr := fresh "mr" in
  let u := fresh "u" in
  destruct w as [cfg environ args se mr u]; simpl in *; subst.

Ltac exec :=
  unfold listeners, bundles, fatals, diagnosticPorts, calls, outcome, finalEnv, run,
    entryPoint, primaryPort, roleConfig, serviceNameOf;
  cbn -[insert lookup GoInt.Sprintf_d GoInt.add ToLower Contains].

(** When the export of the port fails, the entry point has made three
    calls and panics. *)
Lemma run_setenv_failed r w e :
  setenv_error w = Some e ->
  calls r w =
    [EvSetupServerConfig (config w);
     EvSetenv "port" (GoInt.Sprintf_d (primaryPort r w)) (Some e);
     EvLogPanic (Some e)] /\
  outcome r w = Stopped (Panic (Some e)) /\
  finalEnv r w = os_Environ w.
Proof. intros H. world w. destruct r; exec; auto. Qed.

(** When the metadata client cannot be built, the entry point logs a fatal
    message with the error and exits with status 1. *)
Lemma run_metadata_failed r w e :
  setenv_error w = None -> metadata_result w = inl e ->
  exists msg,
    calls r w =
      [EvSetupServerConfig (config w);
       EvSetenv "port" (GoInt.Sprintf_d (primaryPort r w)) None;
       EvNewCassandraMetadataService (GetMetadataConfig (config w)) nilMetaClient (Some e);
       EvLogFatal (Some e) msg] /\
    outcome r w = Stopped (Exit 1).
Proof. intros H1 H2. world w. destruct r; exec; eauto. Qed.

(** On the storage role, a command line that does not parse ends the
    process before the store host is built. *)
Lemma run_bad_args w session :
  setenv_error w = None -> metadata_result w = inr session -> os_Args w = BadArgs ->
  listeners Storage w = [] /\ outcome Storage w = Stopped (Exit 2) /\
  bundles Storage w = [bundle Storage w (CassandraMetadataService session)].
Proof. intros H1 H2 H3. world w. exec. auto. Qed.

(** The base-directory switch reads the environment and leaves the process
    as it was. *)
Lemma baseDirSwitch_run baseDir cfg opts p :
  baseDirSwitch baseDir cfg opts p =
    (Done
       match head (List.filter nonEmpty
                     [baseDir; default "" (env p !! "CHERAMI_STORE");
                      GetBaseDir (GetStorageConfig cfg)]) with
       | Some d => {| Store := Store opts; BaseDir := d |}
       | None => opts
       end, p).
Proof.
  unfold baseDirSwitch, os_Getenv, bind, ret. simpl.
  destruct (nonEmpty baseDir); [reflexivity|].
  destruct (nonEmpty (default "" (env p !! "CHERAMI_STORE"))); [reflexivity|].
  destruct (nonEmpty (GetBaseDir (GetStorageConfig cfg))); reflexivity.
Qed.

Lemma bind_Done {A B} (m : M A) (k : A -> M B) p a p' :
  m p = (Done a, p') -> bind m k p = k a p'.
Proof. unfold bind. now intros ->. Qed.

Lemma nonEmpty_false s : nonEmpty s = false -> s = "".
Proof. destruct s; [reflexivity | discriminate]. Qed.

(** The backend switch assigns the [Store] field only. *)
Lemma storeSwitch_fields s opts :
  Store opts = None ->
  storeSwitch s opts =
    {| Store := Store (storeSwitch s {| Store := None; BaseDir := "" |});
       BaseDir := BaseDir opts |}.
Proof.
  intros H. unfold storeSwitch.
  repeat match goal with
         | |- context [if ?c then _ else _] => destruct c
         end; simpl; try reflexivity.
  destruct opts; simpl in *; congruence.
Qed.

(** The options the storage role hands to the store host, once the port is
    exported, the metadata client built and the command line parsed: the
    store host is built once, with the backend resolved from the name left
    by the flags and the base directory resolved from the three
    candidates. *)
Lemma store_options_run w store dir session :
  setenv_error w = None -> metadata_result w = inr session -> os_Args w = Flags store dir ->
  storeOptions w =
    [{| Store := resolveBackend
                   (flag_StringVar store (GetStore (GetStorageConfig (config w))));
        BaseDir := resolveBaseDir_spec (flag_StringVar dir "")
                     (default "" (os_Environ w !! "CHERAMI_STORE"))
                     (GetBaseDir (GetStorageConfig (config w))) |}].
Proof.
  intros H1 H2 H3. world w.
  unfold storeOptions, calls, run, entryPoint, StartStoreHostService.
  cbn -[insert lookup GoInt.Sprintf_d GoInt.add ToLower Contains baseDirSwitch storeSwitch].
  erewrite bind_Done by apply baseDirSwitch_run.
  cbn -[insert lookup GoInt.Sprintf_d GoInt.add ToLower Contains baseDirSwitch storeSwitch].
  rewrite lookup_insert_ne by discriminate.
  rewrite (storeSwitch_fields _ {| Store := None; BaseDir := flag_StringVar dir "" |})
    by reflexivity.
  unfold resolveBaseDir_spec, resolveBackend. simpl.
  destruct (nonEmpty (flag_StringVar dir "")) eqn:E1; [reflexivity|].
  rewrite (nonEmpty_false _ E1).
  destruct (nonEmpty (default "" (environ !! "CHERAMI_STORE"))); [reflexivity|].
  destruct (nonEmpty (GetBaseDir (GetStorageConfig cfg))); reflexivity.
Qed.

(** ** Base directory and backend of the storage role *)

(** C1.  On the storage role the base directory handed to the store host is
    the first non-empty value among the [--dir] argument, the environment
    variable [CHERAMI_STORE] and the configured [StorageConfig.BaseDir], in
    that order; when all three are empty it is left empty. *)
Theorem base_dir_resolution w store dir session :
  setenv_error w = None -> metadata_result w = inr session -> os_Args w = Flags store dir ->
  exists opts,
    storeOptions w = [opts] /\
    BaseDir opts =
      resolveBaseDir_spec (default "" dir) (default "" (os_Environ w !! "CHERAMI_STORE"))
        (GetBaseDir (GetStorageConfig (config w))) /\
    (BaseDir opts = "" <->
     default "" dir = "" /\ default "" (os_Environ w !! "CHERAMI_STORE") = "" /\
     GetBaseDir (GetStorageConfig (config w)) = "").
Proof.
  intros H1 H2 H3. eexists. split; [apply (store_options_run w store dir session H1 H2 H3)|].
  simpl. replace (flag_StringVar dir "") with (default "" dir) by (destruct dir; reflexivity).
  split; [reflexivity|].
  unfold resolveBaseDir_spec. simpl.
  destruct (default "" dir) as [|c1 s1]; simpl;
    [destruct (default "" (os_Environ w !! "CHERAMI_STORE")) as [|c2 s2]; simpl;
       [destruct (GetBaseDir (GetStorageConfig (config w))) as [|c3 s3]; simpl|]|];
    split; try tauto; try discriminate; intros (? & ? & ?); discriminate.
Qed.

Lemma base_dir_resolution_witness :
  exists opts,
    storeOptions (Sample.up None (Some "/data/a") {["CHERAMI_STORE" := "/data/b"]} "u")
      = [opts] /\
    BaseDir opts = "/data/a".
Proof.
  destruct (base_dir_resolution
              (Sample.up None (Some "/data/a") {["CHERAMI_STORE" := "/data/b"]} "u")
              None (Some "/data/a") 1%nat eq_refl eq_refl eq_refl)
    as (opts & Hopts & Hdir & _).
  exists opts. split; [exact Hopts | exact Hdir].
Defined.

(** The end-to-end example of the spec: with [--dir=/data/a],
    [CHERAMI_STORE=/data/b] and [BaseDir=/data/c] the directory is
    [/data/a]; without the flag it is [/data/b]; without both, [/data/c]. *)
Example base_dir_end_to_end :
  BaseDir <$> storeOptions
    (Sample.up None (Some "/data/a") {["CHERAMI_STORE" := "/data/b"]} "u") = ["/data/a"] /\
  BaseDir <$> storeOptions
    (Sample.up None None {["CHERAMI_STORE" := "/data/b"]} "u") = ["/data/b"] /\
  BaseDir <$> storeOptions (Sample.up None None ∅ "u") = ["/data/c"].
Proof. repeat split; vm_compute; reflexivity. Qed.


(** With the lower-casing of ASCII letters, the resolution used by the
    storage role is the one the spec words. *)
Lemma resolveBackend_as_worded rawName : resolveBackend rawName = resolveBackend_spec rawName.
Proof.
  unfold resolveBackend, resolveBackend_spec, storeSwitch, backendTokens. simpl.
  repeat match goal with
         | |- context [if ?c then _ else _] => destruct c; simpl
         end; reflexivity.
Qed.

(** The examples of the spec, and a name that carries two tokens. *)
Example backend_examples :
  resolveBackend "MyRockstorDB" = Some Rockstor /\
  resolveBackend "foo" = None /\
  resolveBackend "CHUNKY" = Some Chunky /\
  resolveBackend "manyrocks" = Some ManyRocks /\
  resolveBackend "RockCFStor" = Some RockCFstor /\
  resolveBackend "rockcfstor-over-chunky" = Some Chunky.
Proof. repeat split; reflexivity. Qed.

(** C10.  On the storage role the name given to the backend switch is the
    value of the [--store] flag when the flag is supplied, and the
    configured [StorageConfig.Store] when it is not: the flag goes before
    the configuration. *)
Theorem store_flag_precedence w store dir session :
  setenv_error w = None -> metadata_result w = inr session -> os_Args w = Flags store dir ->
  exists opts,
    storeOptions w = [opts] /\
    Store opts =
      resolveBackend
        match store with
        | Some name => name
        | None => GetStore (GetStorageConfig (config w))
        end.
Proof.
  intros H1 H2 H3. eexists.
  split; [apply (store_options_run w store dir session H1 H2 H3) | reflexivity].
Qed.

Lemma store_flag_precedence_witness :
  (exists opts,
     storeOptions (Sample.up None None ∅ "u") = [opts] /\ Store opts = Some ManyRocks) /\
  (exists opts,
     storeOptions (Sample.up (Some "chunky") None ∅ "u") = [opts] /\
     Store opts = Some Chunky) /\
  (exists opts,
     storeOptions (Sample.up (Some "") None ∅ "u") = [opts] /\ Store opts = None).
Proof.
  split; [|split].
  - destruct (store_flag_precedence (Sample.up None None ∅ "u") None None 1%nat
                eq_refl eq_refl eq_refl) as (opts & H & Hs).
    exists opts. split; [exact H | exact Hs].
  - destruct (store_flag_precedence (Sample.up (Some "chunky") None ∅ "u")
                (Some "chunky") None 1%nat eq_refl eq_refl eq_refl) as (opts & H & Hs).
    exists opts. split; [exact H | exact Hs].
  - destruct (store_flag_precedence (Sample.up (Some "") None ∅ "u")
                (Some "") None 1%nat eq_refl eq_refl eq_refl) as (opts & H & Hs).
    exists opts. split; [exact H | exact Hs].
Defined.

(** ** The start of a role *)

Ltac exec_store :=
  unfold listeners, bundles, fatals, diagnosticPorts, calls, outcome, finalEnv, run,
    entryPoint, primaryPort, roleConfig, serviceNameOf, StartStoreHostService;
  cbn -[insert lookup GoInt.Sprintf_d GoInt.add ToLower Contains baseDirSwitch storeSwitch];
  erewrite bind_Done by apply baseDirSwitch_run;
  cbn -[insert lookup GoInt.Sprintf_d GoInt.add ToLower Contains baseDirSwitch storeSwitch].

Ltac split_calls n :=
  match goal with
  | |- exists mid h tc x, ?L = _ /\ _ =>
      exists (firstn (length L - n) (skipn 3 L))
  end;
  cbn [firstn skipn length Nat.sub]; do 3 eexists;
  split; [reflexivity|]; cbn;
  repeat split; try reflexivity; repeat (first [left; reflexivity | right]).

(** A run that starts the role: after the export of the port and the
    construction of the metadata client come calls that open no listener,
    among them the construction of the service-common object and of the
    host; then the host is started, then the websocket server where the role
    has one, then the diagnostic loop. *)
Lemma run_started r w session :
  setenv_error w = None -> metadata_result w = inr session -> starts r w = true ->
  exists mid h tc x,
    calls r w =
      ([EvSetupServerConfig (config w);
       EvSetenv "port" (GoInt.Sprintf_d (primaryPort r w)) None;
       EvNewCassandraMetadataService (GetMetadataConfig (config w))
         (CassandraMetadataService session) None]
      ++ mid
      ++ EvStart h tc
         :: (if exposesStreaming r
             then [EvWSStart (GetListenAddress (roleConfig r w))
                     (GetWebsocketPort (roleConfig r w)) h]
             else [])
      ++ [EvServiceLoop (GoInt.add (primaryPort r w) diagnosticPortOffset) (config w) x])%list /\
    quiet mid = true /\
    In (EvNewService (bundle r w (CassandraMetadataService session))) mid /\
    In (EvNewHost h) mid /\
    outcome r w = Done tt.
Proof.
  intros H1 H2 H3. world w. unfold starts in H3; simpl in H3.
  destruct r.
  - exec. split_calls 6%nat.
  - exec. split_calls 5%nat.
  - exec. split_calls 5%nat.
  - exec. split_calls 6%nat.
  - destruct args; [discriminate|]. exec_store. split_calls 6%nat.
  - exec. split_calls 6%nat.
Qed.

(** A run that does not start the role opens no listener. *)
Lemma listeners_not_started r w : starts r w = false -> listeners r w = [].
Proof.
  intros H. world w. unfold starts in H; simpl in H.
  destruct se, mr, r; try discriminate H; try (exec; reflexivity).
  destruct args; [exec; reflexivity | discriminate H].
Qed.

(** In a run that begins with quiet calls, whatever comes before a listener
    includes all of them. *)
Lemma quiet_before_listener (front back pre post : list Event) ev :
  (front ++ back = pre ++ ev :: post)%list -> isListener ev = true -> quiet front = true ->
  exists more, pre = (front ++ more)%list.
Proof.
  revert pre. induction front as [|q front IH]; intros pre Heq Hev Hq.
  - exists pre. reflexivity.
  - simpl in Hq. apply andb_true_iff in Hq as [Hq1 Hq2].
    destruct pre as [|p pre]; simpl in Heq; injection Heq as Hhead Htail.
    + subst q. rewrite Hev in Hq1. discriminate.
    + subst q. destruct (IH pre Htail Hev Hq2) as [more ->].
      exists more. reflexivity.
Qed.

Lemma listener_in_listeners r w pre ev post :
  calls r w = (pre ++ ev :: post)%list -> isListener ev = true -> In ev (listeners r w).
Proof.
  intros Heq Hev. unfold listeners. apply filter_In. split; [|exact Hev].
  rewrite Heq. apply in_or_app. right. left. reflexivity.
Qed.

(** [starts] decides the three answers of the world. *)
Lemma starts_true r w :
  starts r w = true ->
  setenv_error w = None /\ (exists session, metadata_result w = inr session) /\
  (r = Storage -> os_Args w <> BadArgs).
Proof.
  unfold starts. destruct (setenv_error w); [discriminate|].
  destruct (metadata_result w) as [e|session]; [discriminate|].
  intros H. split; [reflexivity|]. split; [eauto|].
  intros -> Hbad. rewrite Hbad in H. discriminate.
Qed.

Ltac in_cases H :=
  simpl in H;
  repeat match type of H with
         | _ \/ _ => destruct H as [H|H]
         end;
  try discriminate H; try contradiction.

(** Once the metadata client is built, no later call builds another. *)
Lemma metadata_call_ok r w session mc meta err :
  setenv_error w = None -> metadata_result w = inr session ->
  In (EvNewCassandraMetadataService mc meta err) (calls r w) -> err = None.
Proof.
  intros H1 H2. world w.
  destruct r; try (exec; intros H; in_cases H; now injection H).
  destruct args.
  - exec. intros H; in_cases H; now injection H.
  - exec_store. intros H; in_cases H; now injection H.
Qed.

(** ** Failure of the metadata client *)

(** C3.  For every role, when the construction of the metadata client
    returns an error, the entry point logs a fatal message and the process
    exits with status 1; no listener (primary host, websocket server,
    diagnostic loop) has been opened, and the fatal log is the call that
    follows the failed construction. *)
Theorem metadata_failure_is_fatal r w mc meta e :
  In (EvNewCassandraMetadataService mc meta (Some e)) (calls r w) ->
  outcome r w = Stopped (Exit 1) /\
  listeners r w = [] /\
  exists pre msg,
    calls r w =
      (pre ++ [EvNewCassandraMetadataService mc meta (Some e); EvLogFatal (Some e) msg])%list /\
    quiet pre = true.
Proof.
  intros H. destruct (setenv_error w) as [e0|] eqn:Hse.
  - destruct (run_setenv_failed r w e0 Hse) as (Hc & _).
    rewrite Hc in H. in_cases H.
  - destruct (metadata_result w) as [e0|session] eqn:Hmr.
    + destruct (run_metadata_failed r w e0 Hse Hmr) as (msg & Hc & Ho).
      rewrite Hc in H. in_cases H. injection H as <- <- <-.
      split; [exact Ho|]. split.
      * apply listeners_not_started. unfold starts. rewrite Hse, Hmr. reflexivity.
      * exists [EvSetupServerConfig (config w);
                EvSetenv "port" (GoInt.Sprintf_d (primaryPort r w)) None], msg.
        split; [exact Hc | reflexivity].
    + pose proof (metadata_call_ok r w session mc meta (Some e) Hse Hmr H). discriminate.
Qed.

Lemma metadata_failure_is_fatal_witness :
  In (EvNewCassandraMetadataService (metadataConfig "127.0.0.1") nilMetaClient
        (Some "no hosts available")) (calls Output Sample.metadataDown) /\
  outcome Output Sample.metadataDown = Stopped (Exit 1) /\
  listeners Output Sample.metadataDown = [].
Proof.
  assert (H : In (EvNewCassandraMetadataService (metadataConfig "127.0.0.1") nilMetaClient
                    (Some "no hosts available")) (calls Output Sample.metadataDown)).
  { vm_compute. right. right. left. reflexivity. }
  split; [exact H|].
  destruct (metadata_failure_is_fatal Output Sample.metadataDown _ _ _ H) as (Ho & Hl & _).
  split; [exact Ho | exact Hl].
Defined.

(** The failed construction is reached exactly when the port was exported
    and the metadata store answers with an error. *)
Lemma metadata_failure_reached r w e :
  setenv_error w = None -> metadata_result w = inl e ->
  In (EvNewCassandraMetadataService (GetMetadataConfig (config w)) nilMetaClient (Some e))
    (calls r w).
Proof.
  intros Hse Hmr. destruct (run_metadata_failed r w e Hse Hmr) as (msg & Hc & _).
  rewrite Hc. right. right. left. reflexivity.
Qed.

(** ** Order of the listeners *)

Lemma quiet_no_listener l : quiet l = true -> List.filter isListener l = [].
Proof.
  induction l as [|ev l IH]; simpl; [reflexivity|].
  intros H. apply andb_true_iff in H as [H1 H2].
  destruct (isListener ev); [discriminate | auto].
Qed.

Lemma quiet_app l1 l2 : quiet l1 = true -> quiet l2 = true -> quiet (l1 ++ l2) = true.
Proof. unfold quiet. intros H1 H2. rewrite forallb_app, H1, H2. reflexivity. Qed.

(** C4.  For every role the listeners are opened in the order primary host,
    websocket server (for the input, output, storage and replicator roles,
    on the role's listen address and websocket port; not for the controller
    and the frontend), diagnostic loop; a run that stops early opens none.
    Whatever listener is opened, the metadata client has been built
    successfully and the service-common object has been built over it
    before. *)
Theorem start_order r w :
  (if starts r w
   then exists h tc x,
       In (EvNewHost h) (calls r w) /\
       listeners r w =
         (EvStart h tc
          :: (if exposesStreaming r
              then [EvWSStart (GetListenAddress (roleConfig r w))
                      (GetWebsocketPort (roleConfig r w)) h]
              else [])
          ++ [EvServiceLoop (GoInt.add (primaryPort r w) diagnosticPortOffset)
                (config w) x])%list
   else listeners r w = []) /\
  (forall pre ev post,
      calls r w = (pre ++ ev :: post)%list -> isListener ev = true ->
      exists session,
        metadata_result w = inr session /\
        In (EvNewCassandraMetadataService (GetMetadataConfig (config w))
              (CassandraMetadataService session) None) pre /\
        In (EvNewService (bundle r w (CassandraMetadataService session))) pre).
Proof.
  destruct (starts r w) eqn:Hs.
  - destruct (starts_true r w Hs) as (Hse & (session & Hmr) & _).
    destruct (run_started r w session Hse Hmr Hs)
      as (mid & h & tc & x & Hc & Hq & Hb & Hh & _).
    split.
    + exists h, tc, x. split.
      * rewrite Hc. apply in_or_app. right. apply in_or_app. left. exact Hh.
      * unfold listeners. rewrite Hc, !List.filter_app, (quiet_no_listener mid Hq).
        destruct (exposesStreaming r); reflexivity.
    + intros pre ev post Heq Hev. rewrite Hc, app_assoc in Heq.
      apply quiet_before_listener in Heq as [more ->]; [|exact Hev|].
      * exists session. split; [exact Hmr|]. split.
        -- apply in_or_app. left. apply in_or_app. left. right. right. left. reflexivity.
        -- apply in_or_app. left. apply in_or_app. right. exact Hb.
      * apply quiet_app; [reflexivity | exact Hq].
  - split; [apply listeners_not_started; exact Hs|].
    intros pre ev post Heq Hev.
    pose proof (listener_in_listeners r w pre ev post Heq Hev) as Hin.
    rewrite (listeners_not_started r w Hs) in Hin. destruct Hin.
Qed.

(** The listeners of the storage and of the controller role in a world
    where everything answers. *)
Example start_order_examples :
  (exists h tc x,
     listeners Storage (Sample.up None None ∅ "u") =
       [EvStart h tc; EvWSStart "10.0.0.7" 5253 h; EvServiceLoop 14253 Sample.cfg x]) /\
  (exists h tc x,
     listeners Controller (Sample.up None None ∅ "u") =
       [EvStart h tc; EvServiceLoop 15425 Sample.cfg x]).
Proof. split; do 3 eexists; vm_compute; reflexivity. Qed.

(** ** The diagnostic port *)

(** C5.  For every role and every valid primary port, the diagnostic loop
    is given the primary port plus 10000: the one port it is started on in a
    run that starts the role.  The offset is the same constant for the six
    roles and no setting enters it. *)
Theorem diagnostic_port r w :
  validPort (primaryPort r w) ->
  diagnosticPorts r w = if starts r w then [primaryPort r w + 10000] else [].
Proof.
  intros Hp. destruct (starts r w) eqn:Hs.
  - destruct (starts_true r w Hs) as (Hse & (session & Hmr) & _).
    destruct (run_started r w session Hse Hmr Hs)
      as (mid & h & tc & x & Hc & Hq & _).
    unfold diagnosticPorts. rewrite Hc, !omap_app.
    assert (Hmid : omap diagnosticOf mid = []).
    { clear - Hq. induction mid as [|ev mid IH]; [reflexivity|].
      simpl in Hq. apply andb_true_iff in Hq as [H1 H2].
      destruct ev; try discriminate H1; simpl; auto. }
    rewrite Hmid, (diagnostic_no_wrap _ Hp).
    destruct (exposesStreaming r); reflexivity.
  - pose proof (listeners_not_started r w Hs) as Hl.
    unfold diagnosticPorts, listeners in *.
    induction (calls r w) as [|ev l IH]; [reflexivity|].
    simpl in Hl. destruct ev; simpl in *; try discriminate Hl; auto.
Qed.

Lemma diagnostic_port_witness :
  validPort (primaryPort Replicator (Sample.up None None ∅ "u")) /\
  diagnosticPorts Replicator (Sample.up None None ∅ "u") = [16280].
Proof.
  assert (Hp : validPort (primaryPort Replicator (Sample.up None None ∅ "u"))).
  { unfold validPort, primaryPort, roleConfig. simpl. lia. }
  split; [exact Hp|].
  exact (diagnostic_port Replicator (Sample.up None None ∅ "u") Hp).
Defined.

(** ** Identity *)

(** The service-common object is built once, when the port was exported and
    the metadata client built; [uuid.New] is called once before, except on
    the storage role, which never calls it. *)
Lemma bundles_run r w :
  bundles r w =
    match setenv_error w, metadata_result w with
    | None, inr session => [bundle r w (CassandraMetadataService session)]
    | _, _ => []
    end /\
  generated r w =
    match r, setenv_error w, metadata_result w with
    | Storage, _, _ => []
    | _, None, inr _ => [uuid_New w]
    | _, _, _ => []
    end.
Proof.
  world w. unfold generated.
  destruct se, mr, r; try (exec; split; reflexivity).
  destruct args; [exec | exec_store]; split; reflexivity.
Qed.

Lemma bundle_built r w s :
  In s (bundles r w) ->
  exists session,
    setenv_error w = None /\ metadata_result w = inr session /\
    s = bundle r w (CassandraMetadataService session).
Proof.
  rewrite (proj1 (bundles_run r w)).
  destruct (setenv_error w); [intros []|].
  destruct (metadata_result w) as [e|session]; [intros []|].
  intros [<-|[]]. eauto.
Qed.

(** C6.  On the storage role the identity of the service-common object is
    the configured [StorageConfig.HostUUID], as it is; two invocations
    under the same configuration carry the same identity, whatever else
    differs between them. *)
Theorem storage_identity_stable w1 w2 s1 s2 :
  config w1 = config w2 ->
  In s1 (bundles Storage w1) -> In s2 (bundles Storage w2) ->
  sUUID s1 = GetHostUUID (GetStorageConfig (config w1)) /\ sUUID s2 = sUUID s1.
Proof.
  intros Hcfg H1 H2.
  destruct (bundle_built _ _ _ H1) as (m1 & _ & _ & ->).
  destruct (bundle_built _ _ _ H2) as (m2 & _ & _ & ->).
  simpl. rewrite Hcfg. split; reflexivity.
Qed.

Lemma storage_identity_stable_witness :
  exists s1 s2,
    In s1 (bundles Storage (Sample.up None None ∅ "first")) /\
    In s2 (bundles Storage
             (Sample.up (Some "chunky") (Some "/data/a") {["CHERAMI_STORE" := "/data/b"]}
                "second")) /\
    sUUID s1 = "11ca50ad-1b3d-4d73-8be5-5b2b3c6a9c7e" /\ sUUID s2 = sUUID s1.
Proof.
  pose (w1 := Sample.up None None ∅ "first").
  pose (w2 := Sample.up (Some "chunky") (Some "/data/a") {["CHERAMI_STORE" := "/data/b"]}
                "second").
  assert (H1 : In (bundle Storage w1 (CassandraMetadataService 1)) (bundles Storage w1)).
  { rewrite (proj1 (bundles_run Storage w1)). left. reflexivity. }
  assert (H2 : In (bundle Storage w2 (CassandraMetadataService 1)) (bundles Storage w2)).
  { rewrite (proj1 (bundles_run Storage w2)). left. reflexivity. }
  exists (bundle Storage w1 (CassandraMetadataService 1)),
         (bundle Storage w2 (CassandraMetadataService 1)).
  split; [exact H1|]. split; [exact H2|].
  exact (storage_identity_stable w1 w2 _ _ eq_refl H1 H2).
Defined.




(** ** Export of the port *)

(** [Sprintf_d] writes a number in decimal: reading the digits back gives
    the number. *)
Lemma Sprintf_d_decimal n :
  option_map Z.of_int (NilZero.int_of_string (GoInt.Sprintf_d n)) = Some n.
Proof.
  unfold GoInt.Sprintf_d. rewrite NilZero.isi.
  - simpl. now rewrite DecimalZ.of_to.
  - destruct n; simpl; try discriminate.
    intros H. injection H as H. now apply DecimalPos.Unsigned.to_uint_nonnil in H.
  - destruct n; simpl; try discriminate.
    intros H. injection H as H. now apply DecimalPos.Unsigned.to_uint_nonnil in H.
Qed.

(** Every run begins with the loading of the configuration and the export
    of the port; when the export succeeds, the variable stays set to the end
    of the run. *)
Lemma run_begins r w :
  exists rest,
    calls r w =
      EvSetupServerConfig (config w)
      :: EvSetenv "port" (GoInt.Sprintf_d (primaryPort r w)) (setenv_error w)
      :: rest /\
    (setenv_error w = None ->
     finalEnv r w = <["port" := GoInt.Sprintf_d (primaryPort r w)]> (os_Environ w)).
Proof.
  world w.
  destruct se, mr, r;
    try (exec; eexists; split; [reflexivity | try discriminate; reflexivity]).
  destruct args; [exec | exec_store]; eexists; (split; [reflexivity | reflexivity]).
Qed.

(** C9.  For every role the first call after the configuration is loaded
    sets the environment variable [port] to the primary port written in
    decimal.  When that fails the entry point panics: the only call left is
    the log of the panic, so no metadata client is built and no listener
    opened.  When it succeeds the variable holds the port at the end of the
    run. *)
Theorem port_export r w :
  exists rest,
    calls r w =
      EvSetupServerConfig (config w)
      :: EvSetenv "port" (GoInt.Sprintf_d (primaryPort r w)) (setenv_error w)
      :: rest /\
    option_map Z.of_int (NilZero.int_of_string (GoInt.Sprintf_d (primaryPort r w)))
      = Some (primaryPort r w) /\
    match setenv_error w with
    | Some e =>
        rest = [EvLogPanic (Some e)] /\
        outcome r w = Stopped (Panic (Some e)) /\
        listeners r w = [] /\
        finalEnv r w = os_Environ w
    | None =>
        finalEnv r w !! "port" = Some (GoInt.Sprintf_d (primaryPort r w))
    end.
Proof.
  destruct (run_begins r w) as (rest & Hc & Henv).
  exists rest. split; [exact Hc|]. split; [apply Sprintf_d_decimal|].
  destruct (setenv_error w) as [e|] eqn:Hse.
  - destruct (run_setenv_failed r w e Hse) as (Hc' & Ho & He).
    rewrite Hc' in Hc. injection Hc as <-.
    repeat split; auto.
    apply listeners_not_started. unfold starts. rewrite Hse. reflexivity.
  - rewrite (Henv eq_refl). apply lookup_insert_eq.
Qed.

(** A run in which the environment cannot be written, and one in which it
    can. *)
Example port_export_examples :
  calls Input Sample.setenvDown =
    [EvSetupServerConfig Sample.cfg;
     EvSetenv "port" "4240" (Some "setenv: invalid argument");
     EvLogPanic (Some "setenv: invalid argument")] /\
  outcome Input Sample.setenvDown = Stopped (Panic (Some "setenv: invalid argument")) /\
  finalEnv Storage (Sample.up None None ∅ "u") !! "port" = Some "4253".
Proof. repeat split; vm_compute; reflexivity. Qed.

(** ** The fatal message *)

(** The fatal message of each role, when the metadata client cannot be
    built. *)
Lemma fatal_messages w e :
  setenv_error w = None -> metadata_result w = inl e ->
  fatals Input w = [(Some e, "inputhost: unable to instantiate metadata client")] /\
  fatals Controller w =
    [(Some e,
      "unable to instantiate metadata service (did you run ./scripts/setup_cassandra_schema.sh?)")] /\
  fatals Frontend w = [(Some e, "frontendhost: unable to instantiate metadata service")] /\
  fatals Output w = [(Some e, "frontendhost: unable to instantiate metadata service")] /\
  fatals Storage w = [(Some e, "storehost: unable to instantiate metadata client")] /\
  fatals Replicator w = [(Some e, "frontendhost: unable to instantiate metadata service")].
Proof. intros H1 H2. world w. repeat split; exec; reflexivity. Qed.

(** The input, frontend and storage roles name themselves in the
    message. *)
Example fatal_message_names_role :
  forall r, In r [Input; Frontend; Storage] ->
  exists err msg, fatals r Sample.metadataDown = [(err, msg)] /\ namesRole r msg = true.
Proof.
  intros r [<-|[<-|[<-|[]]]]; do 2 eexists; split; vm_compute; reflexivity.
Qed.

(** C8, at the output role with a metadata client that cannot be built: the
    fatal message carries the error, but it names the frontend role, and the
    output role nowhere. *)
Theorem output_fatal_names_frontend :
  fatals Output Sample.metadataDown =
    [(Some "no hosts available", "frontendhost: unable to instantiate metadata service")] /\
  namesRole Frontend "frontendhost: unable to instantiate metadata service" = true /\
  namesRole Output "frontendhost: unable to instantiate metadata service" = false /\
  Contains "frontendhost: unable to instantiate metadata service" "output" = false.
Proof. repeat split; vm_compute; reflexivity. Qed.

(** The replicator role carries the same message, and the controller role
    one that names no role. *)
Example replicator_controller_fatal :
  (exists err msg,
     fatals Replicator Sample.metadataDown = [(err, msg)] /\
     namesRole Replicator msg = false /\ namesRole Frontend msg = true) /\
  (exists err msg,
     fatals Controller Sample.metadataDown = [(err, msg)] /\
     forall r, namesRole r msg = false).
Proof.
  split; do 2 eexists; (split; [vm_compute; reflexivity|]).
  - split; vm_compute; reflexivity.
  - intros r; destruct r; vm_compute; reflexivity.
Qed.

(** * Further properties of the entry points *)

(** Every case of what the world answers, each executed. *)
Ltac every_run r w :=
  world w;
  unfold metadataCalls, flagParses, hosts, started, listenerHosts, exposures, generated;
  match goal with
  | se : error, mr : (string + nat)%type, args : CmdLine |- _ =>
      destruct se, mr, r, args; first [exec_store | exec]
  end.

(** In a list that begins with elements outside a class, whatever comes
    before an element of the class includes all of them. *)
Lemma before_first (P : Event -> bool) (front back pre post : list Event) ev :
  (front ++ back = pre ++ ev :: post)%list -> P ev = true ->
  forallb (fun e => negb (P e)) front = true ->
  exists more, pre = (front ++ more)%list.
Proof.
  revert pre. induction front as [|q front IH]; intros pre Heq Hev Hq.
  - exists pre. reflexivity.
  - simpl in Hq. apply andb_true_iff in Hq as [Hq1 Hq2].
    destruct pre as [|p pre]; simpl in Heq; injection Heq as Hhead Htail.
    + subst q. rewrite Hev in Hq1. discriminate.
    + subst q. destruct (IH pre Htail Hev Hq2) as [more ->].
      exists more. reflexivity.
Qed.

(** ** The environment *)

(** X2.  The export of the port writes the variable [port] and nothing
    else: every other variable has at the end of the run the value the
    process inherited, on every role and whether the export succeeds or
    not. *)
Theorem environment_frame r w key :
  key <> "port" -> finalEnv r w !! key = os_Environ w !! key.
Proof.
  intros Hkey. destruct (setenv_error w) as [e|] eqn:Hse.
  - destruct (run_setenv_failed r w e Hse) as (_ & _ & ->). reflexivity.
  - destruct (run_begins r w) as (rest & _ & Henv).
    rewrite (Henv Hse). apply lookup_insert_ne. congruence.
Qed.

Lemma environment_frame_witness :
  "CHERAMI_STORE" <> "port" /\
  finalEnv Storage (Sample.up None None {["CHERAMI_STORE" := "/data/b"]} "u")
    !! "CHERAMI_STORE" = Some "/data/b".
Proof.
  assert (H : "CHERAMI_STORE" <> "port") by discriminate.
  split; [exact H|].
  rewrite (environment_frame Storage
             (Sample.up None None {["CHERAMI_STORE" := "/data/b"]} "u") "CHERAMI_STORE" H).
  vm_compute. reflexivity.
Defined.

(** ** The metadata client *)

(** X3.  The metadata client is built at most once in a run: never when the
    export of the port failed, and exactly once otherwise; a failed
    construction is not tried again. *)
Theorem metadata_client_built_once r w :
  metadataCalls r w =
    match setenv_error w with
    | Some _ => []
    | None =>
        [match metadata_result w with
         | inl e => Some e
         | inr _ => None
         end]
    end.
Proof. every_run r w; reflexivity. Qed.

(** ** The command line of the storage role *)

Lemma flagParses_run r w :
  flagParses r w =
    match r, setenv_error w, metadata_result w with
    | Storage, None, inr _ => [os_Args w]
    | _, _, _ => []
    end.
Proof. every_run r w; reflexivity. Qed.

(** Before the command line is read, nine calls are made, the last of which
    builds the service-common object. *)
Lemma storage_before_flags w session :
  setenv_error w = None -> metadata_result w = inr session ->
  forallb (fun ev => negb (isFlagParse ev)) (firstn 9 (calls Storage w)) = true /\
  In (EvNewService (bundle Storage w (CassandraMetadataService session)))
    (firstn 9 (calls Storage w)).
Proof.
  intros H1 H2. world w.
  destruct args; [exec | exec_store]; (split; [reflexivity|]);
    do 8 right; left; reflexivity.
Qed.

(** X4.  Only the storage role reads the command line, and it reads it
    once, after the metadata client and the service-common object are
    built: a run that stops before never reads it. *)
Theorem command_line_read_late r w :
  flagParses r w =
    match r, setenv_error w, metadata_result w with
    | Storage, None, inr _ => [os_Args w]
    | _, _, _ => []
    end /\
  forall pre args post,
    calls r w = (pre ++ EvFlagParse args :: post)%list ->
    exists session,
      metadata_result w = inr session /\
      In (EvNewService (bundle r w (CassandraMetadataService session))) pre.
Proof.
  split; [apply flagParses_run|].
  intros pre args post Heq.
  assert (Hfp : flagParses r w <> []).
  { unfold flagParses. rewrite Heq, omap_app. simpl.
    destruct (omap flagOf pre); discriminate. }
  rewrite flagParses_run in Hfp.
  destruct r; try (exfalso; apply Hfp; reflexivity).
  destruct (setenv_error w) eqn:Hse; [exfalso; apply Hfp; reflexivity|].
  destruct (metadata_result w) as [e|session] eqn:Hmr; [exfalso; apply Hfp; reflexivity|].
  destruct (storage_before_flags w session Hse Hmr) as (Hq & Hin).
  rewrite <- (firstn_skipn 9 (calls Storage w)) in Heq.
  apply (before_first isFlagParse) in Heq as [more ->];
    [|reflexivity|exact Hq].
  exists session. split; [reflexivity|]. apply in_or_app. left. exact Hin.
Qed.

(** X5.  On the storage role a command line that does not parse is found
    out only after the metadata client and the service-common object are
    built: the process then exits with status 2 before any host is built or
    any listener opened.  When the metadata client cannot be built, the
    command line is not read and the exit status is 1, whatever the command
    line. *)
Theorem bad_command_line w :
  setenv_error w = None -> os_Args w = BadArgs ->
  hosts Storage w = [] /\ listeners Storage w = [] /\
  match metadata_result w with
  | inr session =>
      outcome Storage w = Stopped (Exit 2) /\
      metadataCalls Storage w = [None] /\
      bundles Storage w = [bundle Storage w (CassandraMetadataService session)] /\
      flagParses Storage w = [BadArgs]
  | inl e =>
      outcome Storage w = Stopped (Exit 1) /\
      flagParses Storage w = []
  end.
Proof.
  intros H1 H2. world w. unfold hosts, metadataCalls, flagParses.
  destruct mr; exec; repeat split; reflexivity.
Qed.

Lemma bad_command_line_witness :
  outcome Storage
    {| config := Sample.cfg; os_Environ := ∅; os_Args := BadArgs; setenv_error := None;
       metadata_result := inr 1%nat; uuid_New := "u" |} = Stopped (Exit 2).
Proof.
  exact (proj1 (proj2 (proj2 (bad_command_line
           {| config := Sample.cfg; os_Environ := ∅; os_Args := BadArgs;
              setenv_error := None; metadata_result := inr 1%nat; uuid_New := "u" |}
           eq_refl eq_refl)))).
Defined.

(** ** Generation of identities *)

(** X6.  The storage role never calls [uuid.New].  Each other role calls it
    once, and only after the metadata client is built: a run that stops at
    the export of the port or at the metadata client generates no
    identity. *)
Theorem identity_generation r w :
  generated r w =
    match r, setenv_error w, metadata_result w with
    | Storage, _, _ => []
    | _, None, inr _ => [uuid_New w]
    | _, _, _ => []
    end.
Proof. every_run r w; reflexivity. Qed.

(** ** The hosts *)

(** X7.  Every host a run builds is built over the run's one service-common
    object and over the metadata client that object's resolver and hardware
    reader use; this holds for the frontend host inside the output role
    too. *)
Theorem hosts_share_bundle r w session h :
  setenv_error w = None -> metadata_result w = inr session ->
  In h (hosts r w) ->
  hostService h = bundle r w (CassandraMetadataService session) /\
  hostMeta h = CassandraMetadataService session /\
  sResolver (hostService h) = uuidResolver (hostMeta h) /\
  sHWInfoReader (hostService h) = hostHardwareInfoReader (hostMeta h).
Proof.
  intros H1 H2. world w. unfold hosts.
  destruct r, args; first [exec_store | exec];
    intros H; in_cases H; subst h; repeat split; reflexivity.
Qed.

Lemma hosts_share_bundle_witness :
  exists fe h,
    hosts Output (Sample.up None None ∅ "u") = [fe; h] /\
    hostService fe = hostService h /\ hostMeta fe = hostMeta h.
Proof.
  pose (w := Sample.up None None ∅ "u").
  assert (Hh : exists fe h, hosts Output w = [fe; h]).
  { do 2 eexists. vm_compute. reflexivity. }
  destruct Hh as (fe & h & Hh). exists fe, h. split; [exact Hh|].
  assert (Hfe : In fe (hosts Output w)) by (rewrite Hh; left; reflexivity).
  assert (Hho : In h (hosts Output w)) by (rewrite Hh; right; left; reflexivity).
  destruct (hosts_share_bundle Output w 1%nat fe eq_refl eq_refl Hfe) as (E1 & E2 & _).
  destruct (hosts_share_bundle Output w 1%nat h eq_refl eq_refl Hho) as (E3 & E4 & _).
  split; congruence.
Defined.

(** X8.  The output role builds two hosts: a frontend host, built under the
    frontend's name but over the output role's own service-common object,
    and the output host, which receives that frontend host.  Only the
    output host is started and given to the websocket server; the frontend
    host is behind no listener. *)
Theorem output_frontend_not_started w session :
  setenv_error w = None -> metadata_result w = inr session ->
  exists fe h,
    hosts Output w = [fe; h] /\
    hostName fe = Some FrontendServiceName /\
    sName (hostService fe) = OutputServiceName /\
    h = OutputHost OutputServiceName (bundle Output w (CassandraMetadataService session))
          (CassandraMetadataService session) fe (GetKafkaConfig (config w)) /\
    listenerHosts Output w = [h; h] /\
    ~ In fe (listenerHosts Output w).
Proof.
  intros H1 H2. world w. unfold hosts, listenerHosts. exec.
  do 2 eexists. repeat split.
  intros H; in_cases H.
Qed.

Lemma output_frontend_not_started_witness :
  exists fe h,
    hosts Output (Sample.up None None ∅ "u") = [fe; h] /\
    listenerHosts Output (Sample.up None None ∅ "u") = [h; h].
Proof.
  destruct (output_frontend_not_started (Sample.up None None ∅ "u") 1%nat eq_refl eq_refl)
    as (fe & h & Hh & _ & _ & _ & Hl & _).
  exists fe, h. split; [exact Hh | exact Hl].
Defined.

(** X9.  The host that is started is the last host the run built, and it
    is started with the registrations its constructor returned; the
    frontend role alone adds one registration, at the end: the metadata
    server over the run's metadata client. *)
Theorem start_channels r w session :
  setenv_error w = None -> metadata_result w = inr session -> starts r w = true ->
  exists h,
    last (hosts r w) = Some h /\
    started r w =
      [(h, HostServer h
           :: match r with
              | Frontend => [TChanMetadataExposableServer (CassandraMetadataService session)]
              | _ => []
              end)].
Proof.
  intros H1 H2 H3. world w. unfold starts in H3; simpl in H3. unfold hosts, started.
  destruct r, args; try discriminate H3; first [exec_store | exec];
    eexists; split; reflexivity.
Qed.

Lemma start_channels_witness :
  exists h meta,
    started Frontend (Sample.up None None ∅ "u")
      = [(h, [HostServer h; TChanMetadataExposableServer meta])].
Proof.
  destruct (start_channels Frontend (Sample.up None None ∅ "u") 1%nat
              eq_refl eq_refl eq_refl) as (h & _ & Hs).
  exists h, (CassandraMetadataService 1). exact Hs.
Defined.

(** ** The diagnostic loop *)

(** X10.  What the diagnostic loop is given depends on the role: the input
    role gives the host that was started, the controller the [Service]
    field of the host that was started, and the frontend, output, storage
    and replicator roles the service-common object. *)
Theorem diagnostic_exposure r w session :
  setenv_error w = None -> metadata_result w = inr session -> starts r w = true ->
  exists h tc,
    started r w = [(h, tc)] /\
    exposures r w =
      [match r with
       | Input => ExposeHost h
       | Controller => ExposeServiceOf h
       | Frontend | Output | Storage | Replicator =>
           ExposeService (bundle r w (CassandraMetadataService session))
       end].
Proof.
  intros H1 H2 H3. world w. unfold starts in H3; simpl in H3. unfold started, exposures.
  destruct r, args; try discriminate H3; first [exec_store | exec];
    do 2 eexists; split; reflexivity.
Qed.

Lemma diagnostic_exposure_witness :
  exists h tc,
    started Controller (Sample.up None None ∅ "u") = [(h, tc)] /\
    exposures Controller (Sample.up None None ∅ "u") = [ExposeServiceOf h].
Proof.
  destruct (diagnostic_exposure Controller (Sample.up None None ∅ "u") 1%nat
              eq_refl eq_refl eq_refl) as (h & tc & Hs & He).
  exists h, tc. split; [exact Hs | exact He].
Defined.

(** The diagnostic port of a run that starts the role. *)
Lemma diagnosticPorts_started r w :
  starts r w = true ->
  diagnosticPorts r w = [GoInt.add (primaryPort r w) diagnosticPortOffset].
Proof.
  intros Hs. destruct (starts_true r w Hs) as (Hse & (session & Hmr) & _).
  world w. unfold starts in Hs; simpl in Hs.
  destruct r, args; try discriminate Hs; first [exec_store | exec]; reflexivity.
Qed.

(** X11.  The diagnostic port is not checked against the range of ports:
    for a valid primary port the diagnostic loop is started on a valid port
    exactly when the primary port is at most 55535, and on a port above
    65535 otherwise. *)
Theorem diagnostic_port_range r w :
  validPort (primaryPort r w) -> starts r w = true ->
  exists d,
    diagnosticPorts r w = [d] /\
    (validPort d <-> primaryPort r w <= 55535) /\
    (55535 < primaryPort r w -> 65535 < d).
Proof.
  intros Hp Hs. exists (primaryPort r w + 10000).
  rewrite (diagnosticPorts_started r w Hs), (diagnostic_no_wrap _ Hp).
  unfold validPort in *. repeat split; lia.
Qed.

Lemma diagnostic_port_range_witness :
  exists w,
    validPort (primaryPort Input w) /\ diagnosticPorts Input w = [70000].
Proof.
  pose (w := {| config :=
                  {| GetServiceConfig := fun _ => Sample.serviceConfig 60000;
                     GetMetadataConfig := metadataConfig "127.0.0.1";
                     GetStorageConfig := GetStorageConfig Sample.cfg;
                     GetKafkaConfig := kafkaConfig "local" |};
                os_Environ := ∅; os_Args := Flags None None; setenv_error := None;
                metadata_result := inr 1%nat; uuid_New := "u" |}).
  assert (Hp : validPort (primaryPort Input w)).
  { unfold validPort, primaryPort, roleConfig. simpl. lia. }
  exists w. split; [exact Hp|].
  destruct (diagnostic_port_range Input w Hp eq_refl) as (d & Hd & _).
  rewrite Hd. vm_compute in Hd. exact (eq_sym Hd).
Defined.

(** ** The backend names and the flags *)

(** X12.  Each of the four backend tokens, written in any letter case,
    selects its own kind: no token is taken over by a token tried before
    it, so every kind can be selected. *)
Theorem token_selects_its_kind :
  (forall tok kind raw,
      In (tok, kind) backendTokens -> ToLower raw = tok ->
      resolveBackend raw = Some kind) /\
  (forall kind, exists tok, In (tok, kind) backendTokens).
Proof.
  split.
  - intros tok kind raw Hin Hraw. unfold resolveBackend. rewrite Hraw.
    in_cases Hin; injection Hin as <- <-; reflexivity.
  - intros kind. destruct kind; eexists; simpl; eauto 6.
Qed.

(** X13.  An empty [--dir] is the same as no [--dir]: the base directory
    falls through to the environment and the configuration.  An empty
    [--store] is not the same as no [--store]: it hides the configured
    store, and no kind is set. *)
Theorem empty_flag_values w store dir session :
  setenv_error w = None -> metadata_result w = inr session ->
  storeOptions (withArgs w (Flags store (Some ""))) =
    storeOptions (withArgs w (Flags store None)) /\
  Store <$> storeOptions (withArgs w (Flags (Some "") dir)) = [None] /\
  Store <$> storeOptions (withArgs w (Flags None dir)) =
    [resolveBackend (GetStore (GetStorageConfig (config w)))].
Proof.
  intros H1 H2. split; [|split].
  - rewrite (store_options_run (withArgs w (Flags store (Some ""))) store (Some "") session
               H1 H2 eq_refl).
    rewrite (store_options_run (withArgs w (Flags store None)) store None session
               H1 H2 eq_refl).
    reflexivity.
  - rewrite (store_options_run (withArgs w (Flags (Some "") dir)) (Some "") dir session
               H1 H2 eq_refl).
    reflexivity.
  - rewrite (store_options_run (withArgs w (Flags None dir)) None dir session
               H1 H2 eq_refl).
    reflexivity.
Qed.

Lemma empty_flag_values_witness :
  Store <$> storeOptions (withArgs (Sample.up None None ∅ "u") (Flags (Some "") None))
    = [None] /\
  Store <$> storeOptions (withArgs (Sample.up None None ∅ "u") (Flags None None))
    = [Some ManyRocks].
Proof.
  destruct (empty_flag_values (Sample.up None None ∅ "u") None None 1%nat eq_refl eq_refl)
    as (_ & He & Hn).
  split; [exact He | exact Hn].
Defined.

(** ** The order of construction *)

(** X14.  Once the metadata client is built, the six roles build the shared
    collaborators in one order: hardware reader, metrics reporter and
    dynamic-configuration client, then the identity (generated, except on
    the storage role), the UUID resolver, the authorization manager, and the
    service-common object over all of them; whatever is specific to the role
    comes after. *)
Theorem bundle_construction_order r w session :
  setenv_error w = None -> metadata_result w = inr session ->
  exists rest,
    calls r w =
      ([EvSetupServerConfig (config w);
        EvSetenv "port" (GoInt.Sprintf_d (primaryPort r w)) None;
        EvNewCassandraMetadataService (GetMetadataConfig (config w))
          (CassandraMetadataService session) None;
        EvNewHostHardwareInfoReader (CassandraMetadataService session);
        EvNewMetricReporterWithHostname (roleConfig r w);
        EvNewDconfigClient (roleConfig r w) (serviceNameOf r)]
       ++ match r with
          | Storage => []
          | _ => [EvUuidNew (uuid_New w)]
          end
       ++ [EvNewUUIDResolver (CassandraMetadataService session);
           EvNewBypassAuthManager;
           EvNewService (bundle r w (CassandraMetadataService session))]
       ++ rest)%list /\
    forall ev, In ev rest -> bundleOf ev = None /\ metadataOf ev = None.
Proof.
  intros H1 H2. world w.
  destruct r, args; first [exec_store | exec];
    eexists; (split; [reflexivity|]);
    intros ev Hev; in_cases Hev; subst ev; split; reflexivity.
Qed.

Lemma bundle_construction_order_witness :
  exists rest,
    calls Storage (Sample.up None None ∅ "u") =
      ([EvSetupServerConfig Sample.cfg;
        EvSetenv "port" "4253" None;
        EvNewCassandraMetadataService (metadataConfig "127.0.0.1")
          (CassandraMetadataService 1) None;
        EvNewHostHardwareInfoReader (CassandraMetadataService 1);
        EvNewMetricReporterWithHostname (Sample.serviceConfig 4253);
        EvNewDconfigClient (Sample.serviceConfig 4253) StoreServiceName;
        EvNewUUIDResolver (CassandraMetadataService 1);
        EvNewBypassAuthManager;
        EvNewService (bundle Storage (Sample.up None None ∅ "u")
                        (CassandraMetadataService 1))]
       ++ rest)%list.
Proof.
  destruct (bundle_construction_order Storage (Sample.up None None ∅ "u") 1%nat
              eq_refl eq_refl) as (rest & Hc & _).
  exists rest. exact Hc.
Defined.
